(** * lofreq: the command dispatcher of [src/lofreq/lofreq_main.c]

    A shallow embedding of [usage] and [main] and the properties of the
    dispatch contract.  C statements become computations in a small monad
    that threads the process state (what was written to the streams, the
    heap calls, [errno]) and that stops at a [return] statement, at a
    successful [execvp], or at undefined behaviour. *)

From Stdlib Require Import ZArith String Ascii Lia.
From stdpp Require Import base list strings.

Local Open Scope Z_scope.

(** ** Data *)

(** A [char *]: [None] is the null pointer, [Some s] points to the
    NUL-terminated string [s].  A [char **] is the array of such pointers
    that can be reached from it. *)
Definition ptr : Type := option string.
Definition NULL : ptr := None.

(** An [int] is a 32-bit two's complement integer.  [argc] and the loop
    counter [i] are modelled in [Z]: [main_arithmetic_in_int] below shows
    that the values [main] computes from an [argc] the system can pass
    stay inside [int], so no wrap-around is left out. *)
Definition INT_MIN : Z := -2147483648.
Definition INT_MAX : Z := 2147483647.
Definition in_int (z : Z) : Prop := INT_MIN <= z <= INT_MAX.

(** The [return] statements of [main], named by their source line. *)
Inductive site : Type := L29 | L32 | L44 | L47 | L52 | L55 | L57.

(** What the process does to the outside, in program order. *)
Inductive event : Type :=
| Stderr (s : string)
| Stdout (s : string)
| LogFatal (s : string)
| Calloc (nmemb : Z)
| Free (block : list ptr)
| MainCall (argc : Z) (argv : list ptr)
| Execvp (file : string) (argv : list ptr).

Record state : Type := mkState { trace : list event; errno : Z }.

(** How a statement ends. *)
Inductive flow (A : Type) : Type :=
| Next (a : A)
| Ret (from : site) (r : Z)
| Replaced
| Undefined.
Arguments Next {A} a.
Arguments Ret {A} from r.
Arguments Replaced {A}.
Arguments Undefined {A}.

(** What the translation unit takes from elsewhere: the package constants,
    the [BASENAME] macro of utils.h, [main_call] of lofreq_snpcaller.h, and
    the C library's [execvp] and [strerror].  [execvp file argv] is [None]
    when the process image is replaced, and [Some (r, e)] when the call
    returns [r] and leaves [errno = e]. *)
Class Collaborators : Type := {
  PACKAGE_NAME : string;
  PACKAGE_VERSION : string;
  BASENAME : string -> string;
  main_call : Z -> list ptr -> Z;
  execvp : string -> list ptr -> option (Z * Z);
  strerror : Z -> string
}.

(** ** The statement monad *)

Definition M (A : Type) : Type := state -> flow A * state.

#[global] Instance M_ret : MRet M := fun A a s => (Next a, s).

#[global] Instance M_bind : MBind M := fun A B f m s =>
  match m s with
  | (Next a, s') => f a s'
  | (Ret l r, s') => (Ret l r, s')
  | (Replaced, s') => (Replaced, s')
  | (Undefined, s') => (Undefined, s')
  end.

Definition Return {A : Type} (l : site) (r : Z) : M A := fun s => (Ret l r, s).
Definition undefined {A : Type} : M A := fun s => (Undefined, s).

Definition emit (e : event) : M unit :=
  fun s => (Next tt, mkState (trace s ++ [e]) (errno s)).

(** ** The C library, as far as [main] uses it *)

Definition nl : string := String (ascii_of_nat 10) EmptyString.

(** [strcmp]: zero exactly on equal strings, otherwise the sign of the
    first difference. *)
Definition strcmp (a b : string) : Z :=
  match String.compare a b with
  | Eq => 0
  | Lt => -1
  | Gt => 1
  end.

(** Reading a string through a pointer; the null pointer has none. *)
Definition deref (p : ptr) : M string :=
  match p with
  | Some s => mret s
  | None => undefined
  end.

(** [a[i]] as an rvalue and [a[i] = p], inside the array only. *)
Definition load (a : list ptr) (i : Z) : M ptr :=
  if decide (0 <= i) then
    match a !! Z.to_nat i with
    | Some p => mret p
    | None => undefined
    end
  else undefined.

Definition store (a : list ptr) (i : Z) (p : ptr) : M (list ptr) :=
  if decide (0 <= i < Z.of_nat (length a)) then mret (<[Z.to_nat i := p]> a)
  else undefined.

(** [calloc (nmemb, sizeof (char* ))]: a block of [nmemb] null pointers.
    Memory is taken not to run out: [main] does not test the result. *)
Definition calloc (nmemb : Z) : M (list ptr) :=
  emit (Calloc nmemb);; mret (replicate (Z.to_nat nmemb) NULL).

Definition free (block : list ptr) : M unit := emit (Free block).

Definition fprintf (stream : string -> event) (text : string) : M unit :=
  emit (stream text).

(** [perror (msg)]: the message, a colon, and the text of [errno]. *)
Definition perror `{Collaborators} (msg : string) : M unit :=
  fun s => emit (Stderr (msg +:+ ": " +:+ strerror (errno s) +:+ nl)) s.

(** The call of [execvp]: it never returns when it succeeds, and sets
    [errno] when it returns.  [argv] is the block as [main] filled it;
    [execvp] reads it up to the first null pointer, and what it does with a
    block that holds none is the collaborator's. *)
Definition call_execvp `{Collaborators} (file : string) (argv : list ptr) : M Z :=
  fun s =>
    let t := trace s ++ [Execvp file argv] in
    match execvp file argv with
    | None => (Replaced, mkState t (errno s))
    | Some (r, e) => (Next r, mkState t e)
    end.

Definition call_main_call `{Collaborators} (argc : Z) (argv : list ptr) : M Z :=
  emit (MainCall argc argv);; mret (main_call argc argv).

(** [LOG_FATAL (fmt, arg)] of log.h, with the format already applied. *)
Definition LOG_FATAL (text : string) : M unit := emit (LogFatal text).

(** ** The translation unit *)

Section Program.
Context `{Collaborators}.

Definition usage (myname : string) : M unit :=
  fprintf Stderr (PACKAGE_NAME +:+ ": Fast and sensitive inference of single-nucleotide variants" +:+ nl);;
  fprintf Stderr nl;;
  fprintf Stderr ("Usage: " +:+ myname +:+ " <command> [options], where command is one of:" +:+ nl);;
  fprintf Stderr ("  call    : call variants" +:+ nl);;
  fprintf Stderr ("  version : prints version" +:+ nl);;
  fprintf Stderr ("  filter : filter variants" +:+ nl);;
  fprintf Stderr nl.

(** [for (i = 2; i < argc; i++) argv_execvp[i-1] = argv[i];] from the
    counter value [i] on, with [n] iterations left.  The body changes
    neither [argc] nor [i], so the loop runs for i = 2, ..., argc-1, which
    is [Z.to_nat (argc - 2)] times. *)
Fixpoint copy_loop (n : nat) (argv : list ptr) (i : Z) (argv_execvp : list ptr)
  : M (list ptr) :=
  match n with
  | O => mret argv_execvp
  | S n' =>
      p ← load argv i;
      argv_execvp' ← store argv_execvp (i - 1) p;
      copy_loop n' argv (i + 1) argv_execvp'
  end.

(** [strcmp (p, lit)], reading the string [p] points to. *)
Definition strcmp_at (p : ptr) (lit : string) : M Z :=
  a ← deref p; mret (strcmp a lit).

Definition main (argc : Z) (argv : list ptr) : M unit :=
  (if decide (argc < 2) then
     p0 ← load argv 0;
     a0 ← deref p0;
     usage (BASENAME a0);;
     Return L29 1
   else mret tt);;
  ((p1 ← load argv 1;
   c ← strcmp_at p1 "call";
   if decide (c = 0) then
     r ← call_main_call (argc - 1) (drop 1 argv);
     Return L32 r
   else
     p1 ← load argv 1;
     c ← strcmp_at p1 "filter";
     if decide (c = 0) then
       argv_execvp ← calloc (argc - 1);
       p0 ← load argv 0;
       argv_execvp ← store argv_execvp 0 p0;
       argv_execvp ← copy_loop (Z.to_nat (argc - 2)) argv 2 argv_execvp;
       e ← call_execvp "lofreq2_filter.py" argv_execvp;
       if decide (e ≠ 0) then
         perror "Calling lofreq2_filter.py via execvp failed";;
         free argv_execvp;;
         Return L44 (-1)
       else
         free argv_execvp;;
         Return L47 0
     else
       p1 ← load argv 1;
       c ← strcmp_at p1 "version";
       if decide (c = 0) then
         fprintf Stdout (PACKAGE_VERSION +:+ nl);;
         Return L52 0
       else
         p1 ← load argv 1;
         a1 ← deref p1;
         LOG_FATAL ("Unrecognized command '" +:+ a1 +:+ "'" +:+ nl);;
         Return L55 1) : M unit);;
  Return L57 0.

(** The array [main] receives for the arguments [args]: one pointer per
    argument and the null pointer after the last. *)
Definition c_argv (args : list string) : list ptr := (Some <$> args) ++ [NULL].

Definition start : state := mkState [] 0.

(** The whole run of the program on [args] ([args] includes the program
    name when there is one). *)
Definition invoke (args : list string) : flow unit * state :=
  main (Z.of_nat (length args)) (c_argv args) start.

End Program.

(** ** Observations on a run *)

(** The calls of [execvp] in a trace: the file and the array handed over. *)
Fixpoint execvp_calls (t : list event) : list (string * list ptr) :=
  match t with
  | [] => []
  | Execvp file argv :: t' => (file, argv) :: execvp_calls t'
  | _ :: t' => execvp_calls t'
  end.

(** The slot counts asked of [calloc] in a trace. *)
Fixpoint calloc_calls (t : list event) : list Z :=
  match t with
  | [] => []
  | Calloc n :: t' => n :: calloc_calls t'
  | _ :: t' => calloc_calls t'
  end.

(** What a trace writes to standard output and to the error stream. *)
Fixpoint stdout_of (t : list event) : string :=
  match t with
  | [] => EmptyString
  | Stdout s :: t' => s +:+ stdout_of t'
  | _ :: t' => stdout_of t'
  end.

Fixpoint stderr_of (t : list event) : string :=
  match t with
  | [] => EmptyString
  | Stderr s :: t' => s +:+ stderr_of t'
  | _ :: t' => stderr_of t'
  end.

(** [sub] occurs in [s]. *)
Definition contains (s sub : string) : Prop :=
  exists pre post : string, s = pre +:+ sub +:+ post.

(** The four arms of the dispatch chain of [main] (lines 31 to 56). *)
Inductive branch : Type := Bcall | Bfilter | Bversion | Belse.

(** The arm a [return] statement lies in; the guard's [return] on line 29
    and the trailing one on line 57 lie in none. *)
Definition branch_of_site (l : site) : option branch :=
  match l with
  | L32 => Some Bcall
  | L44 | L47 => Some Bfilter
  | L52 => Some Bversion
  | L55 => Some Belse
  | L29 | L57 => None
  end.

(** The arm in which a run ended; only the filter arm calls [execvp]. *)
Definition branch_run (res : flow unit * state) : option branch :=
  match fst res with
  | Ret l _ => branch_of_site l
  | Replaced => Some Bfilter
  | Next _ | Undefined => None
  end.

(** The arm the spec assigns to a subcommand token: exact matches in the
    order [call], [filter], [version], else the error arm. *)
Definition arm_of_token (token : string) : branch :=
  if decide (token = "call") then Bcall
  else if decide (token = "filter") then Bfilter
  else if decide (token = "version") then Bversion
  else Belse.

(** The contract of the process-replacement primitive: when it returns,
    it returns a nonzero value. *)
Definition execvp_contract `{Collaborators} : Prop :=
  forall (file : string) (argv : list ptr) (r e : Z),
    execvp file argv = Some (r, e) -> r <> 0.

(** The text after the last '/' of a path, the whole path when it has
    none. *)
Fixpoint after_last_slash (x : string) : option string :=
  match x with
  | EmptyString => None
  | String c x' =>
      match after_last_slash x' with
      | Some t => Some t
      | None => if Ascii.eqb c "/" then Some x' else None
      end
  end.

(** A test double for the collaborators: a handler that returns 7, and an
    [execvp] that finds no executable (it returns -1 with
    [errno = ENOENT]). *)
Definition stub : Collaborators := {|
  PACKAGE_NAME := "lofreq";
  PACKAGE_VERSION := "2.0.0-test";
  BASENAME := fun x => default x (after_last_slash x);
  main_call := fun _ _ => 7;
  execvp := fun _ _ => Some (-1, 2);
  strerror := fun _ => "No such file or directory"
|}.

(** The blocks given to [free] and the calls of [main_call] in a trace. *)
Fixpoint free_calls (t : list event) : list (list ptr) :=
  match t with
  | [] => []
  | Free block :: t' => block :: free_calls t'
  | _ :: t' => free_calls t'
  end.


(** A second test double: its [execvp] starts the executable. *)
Definition stub_launch : Collaborators := {|
  PACKAGE_NAME := "lofreq";
  PACKAGE_VERSION := "2.0.0-test";
  BASENAME := fun x => default x (after_last_slash x);
  main_call := fun _ _ => 0;
  execvp := fun _ _ => None;
  strerror := fun _ => "Success"
|}.

(** ** Lemmas on the C library model *)

Lemma strcmp_eq (a b : string) : strcmp a b = 0 <-> a = b.
Proof.
  unfold strcmp. split.
  - destruct (String.compare a b) eqn:E; try discriminate.
    intros _. now apply String.compare_eq_iff.
  - intros ->. pose proof (String.compare_antisym b b) as E.
    destruct (String.compare b b); simpl in E; congruence.
Qed.

Lemma main_arithmetic_in_int (argc i : Z) :
  in_int argc -> 2 <= argc -> 2 <= i < argc ->
  in_int (argc - 1) /\ in_int (i - 1) /\ in_int (i + 1).
Proof. unfold in_int, INT_MIN, INT_MAX. lia. Qed.

Lemma append_nil_r (s : string) : s +:+ EmptyString = s.
Proof.
  induction s as [|c s IH]; [reflexivity|].
  change (String c (s +:+ EmptyString) = String c s). now rewrite IH.
Qed.

Lemma bind_Next {A B : Type} (m : M A) (f : A -> M B) (s s' : state) (a : A) :
  m s = (Next a, s') -> (m ≫= f) s = f a s'.
Proof. intros E. unfold mbind, M_bind. now rewrite E. Qed.

Lemma load_at (a : list ptr) (n : nat) (i : Z) (p : ptr) (s : state) :
  i = Z.of_nat n -> a !! n = Some p -> load a i s = (Next p, s).
Proof.
  intros -> E. unfold load.
  destruct (decide (0 <= Z.of_nat n)) as [_|Hn]; [|lia].
  rewrite Nat2Z.id, E. reflexivity.
Qed.

Lemma store_at (a : list ptr) (n : nat) (i : Z) (p : ptr) (s : state) :
  i = Z.of_nat n -> (n < length a)%nat ->
  store a i p s = (Next (<[n := p]> a), s).
Proof.
  intros -> Hn. unfold store.
  destruct (decide _) as [_|Hc]; [|lia].
  rewrite Nat2Z.id. reflexivity.
Qed.

Lemma bind_Ret {A B : Type} (m : M A) (f : A -> M B) (s s' : state) (l : site) (r : Z) :
  m s = (Ret l r, s') -> (m ≫= f) s = (Ret l r, s').
Proof. intros E. unfold mbind, M_bind. now rewrite E. Qed.

Lemma bind_Replaced {A B : Type} (m : M A) (f : A -> M B) (s s' : state) :
  m s = (Replaced, s') -> (m ≫= f) s = (Replaced, s').
Proof. intros E. unfold mbind, M_bind. now rewrite E. Qed.

Lemma bind_Undefined {A B : Type} (m : M A) (f : A -> M B) (s s' : state) :
  m s = (Undefined, s') -> (m ≫= f) s = (Undefined, s').
Proof. intros E. unfold mbind, M_bind. now rewrite E. Qed.

Lemma strcmp_at_Some (a lit : string) (s : state) :
  strcmp_at (Some a) lit s = (Next (strcmp a lit), s).
Proof. reflexivity. Qed.

Section Proofs.
Context `{Collaborators}.

(** The copy loop on a well-formed array: with [front] before the strings
    [xs] in [argv] and one slot less already written in the target, the
    loop writes the pointers to [xs] in order and stays inside both
    arrays. *)
Lemma copy_loop_spec (xs : list string) :
  forall (front rest done : list ptr) (s : state),
    length front = S (length done) ->
    copy_loop (length xs) (front ++ (Some <$> xs) ++ rest)
              (Z.of_nat (length front))
              (done ++ replicate (length xs) NULL) s
    = (Next (done ++ (Some <$> xs)), s).
Proof.
  induction xs as [|x xs IH]; intros front rest done s Hlen;
    cbn [length copy_loop replicate fmap list_fmap app].
  - rewrite !app_nil_r. reflexivity.
  - rewrite (bind_Next _ _ s s (Some x)).
    2:{ apply (load_at _ (length front)); [reflexivity|].
        now apply list_lookup_middle. }
    rewrite (bind_Next _ _ s s (done ++ Some x :: replicate (length xs) NULL)).
    2:{ rewrite (store_at _ (length done + 0)); [|lia|].
        - now rewrite insert_app_r.
        - rewrite length_app. cbn [length]. lia. }
    specialize (IH (front ++ [Some x]) rest (done ++ [Some x]) s).
    rewrite <- !app_assoc, length_app in IH. cbn [app length] in IH.
    replace (Z.of_nat (length front) + 1) with (Z.of_nat (length front + 1)) by lia.
    apply IH. rewrite length_app. cbn [length]. lia.
Qed.


(** *** The runs of [main], arm by arm *)

Lemma argc_ge_2 (a0 a1 : string) (rest : list string) :
  ~ Z.of_nat (length (a0 :: a1 :: rest)) < 2.
Proof. cbn [length]. lia. Qed.

Lemma load_argv_0 (a0 : string) (rest : list string) (s : state) :
  load (c_argv (a0 :: rest)) 0 s = (Next (Some a0), s).
Proof. now apply (load_at _ 0). Qed.

Lemma load_argv_1 (a0 a1 : string) (rest : list string) (s : state) :
  load (c_argv (a0 :: a1 :: rest)) 1 s = (Next (Some a1), s).
Proof. now apply (load_at _ 1). Qed.

Ltac past_guard :=
  unfold invoke, main;
  destruct (decide _) as [Hlt|_]; [now apply argc_ge_2 in Hlt|];
  erewrite bind_Next by reflexivity.

Ltac compare_arg1 E :=
  erewrite bind_Next by apply load_argv_1;
  erewrite bind_Next by apply strcmp_at_Some;
  destruct (decide _) as [E|E];
  [try (apply strcmp_eq in E; congruence)
  |try (exfalso; apply E; now apply strcmp_eq)].

(** No argument at all: [argv[0]] is the null pointer, and [main] hands
    it to [BASENAME] and to [%s]. *)
Lemma invoke_nil : invoke [] = (Undefined, start).
Proof. reflexivity. Qed.

Lemma invoke_usage (a0 : string) :
  invoke [a0] = (Ret L29 1, snd (usage (BASENAME a0) start)).
Proof. reflexivity. Qed.

Lemma invoke_call (a0 : string) (rest : list string) :
  let argc := Z.of_nat (length (a0 :: "call" :: rest)) in
  let argv := c_argv (a0 :: "call" :: rest) in
  invoke (a0 :: "call" :: rest)
  = (Ret L32 (main_call (argc - 1) (drop 1 argv)),
     mkState [MainCall (argc - 1) (drop 1 argv)] 0).
Proof.
  intros argc argv. past_guard. apply bind_Ret.
  compare_arg1 E. reflexivity.
Qed.

Lemma invoke_filter (a0 : string) (rest : list string) :
  let argc := Z.of_nat (length (a0 :: "filter" :: rest)) in
  let argv_execvp := Some <$> a0 :: rest in
  let t := [Calloc (argc - 1); Execvp "lofreq2_filter.py" argv_execvp] in
  invoke (a0 :: "filter" :: rest)
  = match execvp "lofreq2_filter.py" argv_execvp with
    | None => (Replaced, mkState t 0)
    | Some (r, e) =>
        if decide (r <> 0) then
          (Ret L44 (-1),
           mkState (t ++ [Stderr ("Calling lofreq2_filter.py via execvp failed"
                                  +:+ ": " +:+ strerror e +:+ nl);
                          Free argv_execvp]) e)
        else (Ret L47 0, mkState (t ++ [Free argv_execvp]) e)
    end.
Proof.
  intros argc argv_execvp t.
  assert (Hbuild : forall (k : list ptr -> M unit) (s : state),
    (argv_execvp ← calloc (argc - 1);
     p0 ← load (c_argv (a0 :: "filter" :: rest)) 0;
     argv_execvp ← store argv_execvp 0 p0;
     argv_execvp ← copy_loop (Z.to_nat (argc - 2))
                     (c_argv (a0 :: "filter" :: rest)) 2 argv_execvp;
     k argv_execvp) s
    = k argv_execvp (mkState (trace s ++ [Calloc (argc - 1)]) (errno s))).
  { intros k s.
    erewrite bind_Next by reflexivity.
    erewrite bind_Next by apply load_argv_0.
    replace (Z.to_nat (argc - 1)) with (S (length rest))
      by (subst argc; cbn [length]; lia).
    erewrite bind_Next by (now apply (store_at _ 0); cbn [length replicate]; lia).
    cbn [replicate insert list_insert].
    replace (Z.to_nat (argc - 2)) with (length rest)
      by (subst argc; cbn [length]; lia).
    erewrite bind_Next; [reflexivity|].
    apply (copy_loop_spec rest [Some a0; Some "filter"] [NULL] [Some a0]).
    reflexivity. }
  assert (Harm : forall res : flow unit * state,
    (e ← call_execvp "lofreq2_filter.py" argv_execvp;
     if decide (e ≠ 0) then
       perror "Calling lofreq2_filter.py via execvp failed";;
       free argv_execvp;;
       Return L44 (-1)
     else free argv_execvp;; Return L47 0)
      (mkState (trace start ++ [Calloc (argc - 1)]) (errno start)) = res ->
    (forall u, fst res <> Next u) ->
    invoke (a0 :: "filter" :: rest) = res).
  { intros res Hres Hstop. past_guard. fold argc.
    unfold mbind at 1. unfold M_bind at 1.
    erewrite bind_Next by apply load_argv_1.
    erewrite bind_Next by apply strcmp_at_Some.
    destruct (decide _) as [E|_]; [apply strcmp_eq in E; congruence|].
    erewrite bind_Next by apply load_argv_1.
    erewrite bind_Next by apply strcmp_at_Some.
    destruct (decide _) as [_|E]; [|exfalso; apply E; now apply strcmp_eq].
    rewrite Hbuild, Hres.
    destruct res as [[u| | |] s']; try reflexivity.
    now destruct (Hstop u). }
  apply Harm.
  - unfold call_execvp at 1. unfold mbind at 1. unfold M_bind at 1.
    cbn [trace errno start app].
    destruct (execvp "lofreq2_filter.py" argv_execvp) as [[r e]|]; [|reflexivity].
    destruct (decide (r <> 0)); reflexivity.
  - intros u.
    destruct (execvp "lofreq2_filter.py" argv_execvp) as [[r e]|]; [|discriminate].
    destruct (decide (r <> 0)); discriminate.
Qed.

Lemma invoke_version (a0 : string) (rest : list string) :
  invoke (a0 :: "version" :: rest)
  = (Ret L52 0, mkState [Stdout (PACKAGE_VERSION +:+ nl)] 0).
Proof.
  past_guard. apply bind_Ret.
  compare_arg1 E. clear E.
  compare_arg1 E. clear E.
  compare_arg1 E. reflexivity.
Qed.

Lemma invoke_else (a0 a1 : string) (rest : list string) :
  a1 <> "call" -> a1 <> "filter" -> a1 <> "version" ->
  invoke (a0 :: a1 :: rest)
  = (Ret L55 1,
     mkState [LogFatal ("Unrecognized command '" +:+ a1 +:+ "'" +:+ nl)] 0).
Proof.
  intros Hc Hf Hv. past_guard. apply bind_Ret.
  compare_arg1 E. clear E.
  compare_arg1 E. clear E.
  compare_arg1 E. clear E.
  erewrite bind_Next by apply load_argv_1.
  reflexivity.
Qed.

Lemma arm_of_token_filter (token : string) :
  arm_of_token token = Bfilter -> token = "filter".
Proof.
  unfold arm_of_token.
  destruct (decide (token = "call")); [discriminate|].
  destruct (decide (token = "filter")); [trivial|].
  destruct (decide (token = "version")); discriminate.
Qed.

(** With a subcommand token the run ends in the arm of that token. *)
Lemma branch_run_token (a0 a1 : string) (rest : list string) :
  branch_run (invoke (a0 :: a1 :: rest)) = Some (arm_of_token a1).
Proof.
  unfold arm_of_token.
  destruct (decide (a1 = "call")) as [->|Hc];
    [now rewrite invoke_call|].
  destruct (decide (a1 = "filter")) as [->|Hf].
  { rewrite invoke_filter.
    destruct (execvp _ _) as [[r e]|]; [|reflexivity].
    now destruct (decide (r <> 0)). }
  destruct (decide (a1 = "version")) as [->|Hv];
    [now rewrite invoke_version|].
  now rewrite invoke_else.
Qed.

(** On the filter path one block of [argc - 1] slots is allocated, the
    array handed to [execvp] is that block, and every slot of it holds a
    pointer to an argument: none is left null. *)
Lemma filter_array_full (a0 : string) (rest : list string) :
  let t := trace (snd (invoke (a0 :: "filter" :: rest))) in
  exists argv_execvp : list ptr,
    calloc_calls t = [Z.of_nat (length (a0 :: "filter" :: rest)) - 1] /\
    execvp_calls t = [("lofreq2_filter.py", argv_execvp)] /\
    Z.of_nat (length argv_execvp) = Z.of_nat (length (a0 :: "filter" :: rest)) - 1 /\
    Forall is_Some argv_execvp.
Proof.
  intros t. exists (Some <$> a0 :: rest). subst t.
  rewrite invoke_filter.
  assert (Hlen : Z.of_nat (length (Some <$> a0 :: rest))
                 = Z.of_nat (length (a0 :: "filter" :: rest)) - 1)
    by (rewrite length_fmap; cbn [length]; lia).
  assert (Hfull : Forall is_Some (Some <$> a0 :: rest))
    by (apply Forall_fmap, Forall_forall; intros x _; now exists x).
  destruct (execvp _ _) as [[r e]|]; [destruct (decide (r <> 0))|];
    repeat split; auto.
Qed.

(** ** Properties of the dispatch contract *)

(** C1. For every invocation with argc >= 3 whose argument 1 is "filter",
    the argument vector built for [execvp] has the original program path
    [argv[0]] at position 0, followed by the original arguments from
    index 2 onward in their order; the token "filter" is dropped. *)
Theorem C1_filter_vector_is_path_then_tail (args : list string) :
  (3 <= length args)%nat ->
  args !! 1%nat = Some "filter" ->
  exists progname : string,
    args !! 0%nat = Some progname /\
    execvp_calls (trace (snd (invoke args)))
    = [("lofreq2_filter.py", Some progname :: (Some <$> drop 2 args))].
Proof.
  intros Hlen Hf.
  destruct args as [|a0 [|a1 rest]]; try discriminate.
  cbn in Hf. injection Hf as ->.
  exists a0. split; [reflexivity|].
  rewrite invoke_filter. cbn [drop].
  destruct (execvp _ _) as [[r e]|]; [destruct (decide (r <> 0))|];
    reflexivity.
Qed.

(** C2. For every invocation with argc >= 2 whose argument 1 is "call",
    the dispatcher calls the handler once, with count argc-1 and the
    vector starting at index 1 (so "call" is at position 0 of the
    handler's vector), and whatever integer r the handler returns, [main]
    returns r. *)
Theorem C2_call_delegates_and_propagates (args : list string) :
  (2 <= length args)%nat ->
  args !! 1%nat = Some "call" ->
  let argc := Z.of_nat (length args) in
  let argv := c_argv args in
  trace (snd (invoke args)) = [MainCall (argc - 1) (drop 1 argv)] /\
  drop 1 argv !! 0%nat = Some (Some "call") /\
  forall r : Z,
    main_call (argc - 1) (drop 1 argv) = r -> fst (invoke args) = Ret L32 r.
Proof.
  intros Hlen Hc.
  destruct args as [|a0 [|a1 rest]]; try discriminate.
  cbn in Hc. injection Hc as ->.
  intros argc argv. subst argc argv. rewrite invoke_call.
  repeat split. now intros r <-.
Qed.

(** C3, at the invocation [lofreq filter x] (argc = 3): [calloc] is asked
    for argc-1 = 2 slots, and the array handed to [execvp] is exactly
    these two slots, both filled; no slot is left zero and the array holds
    no terminating null pointer. *)
Theorem C3_filter_array_without_terminator :
  let t := trace (snd (invoke ["lofreq"; "filter"; "x"])) in
  calloc_calls t = [2] /\
  execvp_calls t = [("lofreq2_filter.py", [Some "lofreq"; Some "x"])] /\
  NULL ∉ [Some "lofreq"; Some "x"].
Proof.
  cbv zeta. rewrite invoke_filter.
  assert (Hnn : NULL ∉ [Some "lofreq"; Some "x"]).
  { intros Hin. apply list_elem_of_In in Hin.
    destruct Hin as [E|[E|[]]]; discriminate. }
  destruct (execvp _ _) as [[r e]|]; [destruct (decide (r <> 0))|];
    repeat split; auto.
Qed.

(** C4. For every invocation on the filter path where [execvp] returns a
    nonzero value (the executable could not be started), the dispatcher
    writes the description of the OS error ([strerror] of the [errno] left
    by [execvp]) to the error stream and returns -1: the run ends in a
    [return] statement, not in undefined behaviour. *)
Theorem C4_filter_launch_failure (a0 : string) (rest : list string) (r e : Z) :
  execvp "lofreq2_filter.py" (Some <$> a0 :: rest) = Some (r, e) ->
  r <> 0 ->
  let res := invoke (a0 :: "filter" :: rest) in
  fst res = Ret L44 (-1) /\
  stderr_of (trace (snd res))
  = "Calling lofreq2_filter.py via execvp failed: " +:+ strerror e +:+ nl /\
  contains (stderr_of (trace (snd res))) (strerror e).
Proof.
  intros Hex Hr res. subst res. rewrite invoke_filter, Hex.
  destruct (decide (r <> 0)) as [_|Hn]; [|contradiction].
  cbn [fst snd trace app stderr_of].
  rewrite append_nil_r.
  repeat split.
  exists "Calling lofreq2_filter.py via execvp failed: ", nl. reflexivity.
Qed.


(** X10. For every invocation with exactly one argument (argc = 1: the
    program name and no subcommand token), the dispatcher prints the
    usage text to the error stream, with [BASENAME] of argument 0 as the
    invocation name, and returns 1. *)
Theorem X10_usage_with_program_name_only (args : list string) :
  length args = 1%nat ->
  exists a0 : string,
    args !! 0%nat = Some a0 /\
    fst (invoke args) = Ret L29 1 /\
    trace (snd (invoke args))
    = [Stderr (PACKAGE_NAME +:+ ": Fast and sensitive inference of single-nucleotide variants" +:+ nl);
       Stderr nl;
       Stderr ("Usage: " +:+ BASENAME a0 +:+ " <command> [options], where command is one of:" +:+ nl);
       Stderr ("  call    : call variants" +:+ nl);
       Stderr ("  version : prints version" +:+ nl);
       Stderr ("  filter : filter variants" +:+ nl);
       Stderr nl].
Proof.
  intros Hlen. destruct args as [|a0 [|a1 rest]]; try discriminate.
  exists a0. rewrite invoke_usage. repeat split.
Qed.

(** C6. For the invocation [progname version], the dispatcher writes to
    standard output exactly the version string followed by a newline,
    writes nothing else, and returns 0. *)
Theorem C6_version_prints_and_returns_0 (progname : string) :
  fst (invoke [progname; "version"]) = Ret L52 0 /\
  stdout_of (trace (snd (invoke [progname; "version"]))) = PACKAGE_VERSION +:+ nl /\
  trace (snd (invoke [progname; "version"])) = [Stdout (PACKAGE_VERSION +:+ nl)].
Proof.
  rewrite invoke_version. cbn [fst snd trace stdout_of].
  now rewrite append_nil_r.
Qed.

(** C7. For every invocation with argc >= 2 whose argument 1 is none of
    "call", "filter", "version", the dispatcher emits one fatal-level log
    message, which contains the unrecognized token, and returns 1. *)
Theorem C7_unrecognized_command (args : list string) (token : string) :
  (2 <= length args)%nat ->
  args !! 1%nat = Some token ->
  token <> "call" -> token <> "filter" -> token <> "version" ->
  exists msg : string,
    invoke args = (Ret L55 1, mkState [LogFatal msg] 0) /\
    contains msg token.
Proof.
  intros Hlen Ht Hc Hf Hv.
  destruct args as [|a0 [|a1 rest]]; try discriminate.
  cbn in Ht. injection Ht as ->.
  eexists. split; [now apply invoke_else|].
  exists "Unrecognized command '", ("'" +:+ nl). reflexivity.
Qed.

(** C8, amended. For every invocation on the filter path, the forwarded
    argument list has the original program path [argv[0]] as its first
    element and after it, position by position, the arguments that follow
    the subcommand token; the fixed name "lofreq2_filter.py" is the file
    given to [execvp], not an element of the list. *)
Theorem C8_filter_list_keeps_path_and_order (args : list string) :
  args !! 1%nat = Some "filter" ->
  exists (a0 : string) (forwarded : list ptr),
    args !! 0%nat = Some a0 /\
    execvp_calls (trace (snd (invoke args))) = [("lofreq2_filter.py", forwarded)] /\
    forwarded !! 0%nat = Some (Some a0) /\
    S (length forwarded) = length args /\
    forall i : nat, forwarded !! S i = Some <$> args !! S (S i).
Proof.
  intros Hf. destruct args as [|a0 [|a1 rest]]; try discriminate.
  cbn in Hf. injection Hf as ->.
  exists a0, (Some <$> a0 :: rest).
  split; [reflexivity|]. split.
  { rewrite invoke_filter.
    destruct (execvp _ _) as [[r e]|]; [destruct (decide (r <> 0))|];
      reflexivity. }
  split; [reflexivity|]. split.
  { rewrite length_fmap. reflexivity. }
  intros i. cbn. apply list_lookup_fmap.
Qed.

(** C9. For every invocation with argc >= 2 the arm of the dispatch chain
    that runs depends only on the string at argument index 1: two
    invocations that agree there end in the same arm.  In particular
    "version" prints the version string and returns 0, and an
    unrecognized token returns 1, whatever arguments follow. *)
Theorem C9_arm_depends_on_argument_1_only (args args' : list string) :
  (2 <= length args)%nat ->
  (2 <= length args')%nat ->
  args !! 1%nat = args' !! 1%nat ->
  branch_run (invoke args) = branch_run (invoke args') /\
  is_Some (branch_run (invoke args)) /\
  (args !! 1%nat = Some "version" ->
   invoke args = (Ret L52 0, mkState [Stdout (PACKAGE_VERSION +:+ nl)] 0)) /\
  (forall token : string,
     args !! 1%nat = Some token ->
     token <> "call" -> token <> "filter" -> token <> "version" ->
     fst (invoke args) = Ret L55 1).
Proof.
  intros Hlen Hlen' Heq.
  destruct args as [|a0 [|a1 rest]]; try (cbn in Hlen; lia).
  destruct args' as [|a0' [|a1' rest']]; try (cbn in Hlen'; lia).
  cbn in Heq. injection Heq as <-.
  rewrite !branch_run_token.
  split; [reflexivity|]. split; [eauto|]. split.
  - cbn. intros [= ->]. apply invoke_version.
  - cbn. intros token [= ->] Hc Hf Hv. now rewrite invoke_else.
Qed.

(** C10, amended. When [execvp] returns only nonzero values, no run of
    [main] falls off its end, and a run that returns does so from the
    guard on line 29 or from inside one of the four arms of the dispatch
    chain, never from the [return 0] on line 47 or the trailing one on
    line 57; on the filter path a run that returns does so on line 44,
    with -1. *)
Theorem C10_return_sites (args : list string) :
  execvp_contract ->
  (forall u : unit, fst (invoke args) <> Next u) /\
  (forall (l : site) (r : Z),
     fst (invoke args) = Ret l r ->
     l <> L47 /\ l <> L57 /\
     (l = L29 \/ is_Some (branch_of_site l)) /\
     (args !! 1%nat = Some "filter" -> l = L44 /\ r = -1)).
Proof.
  intros Hcontract.
  destruct args as [|a0 [|a1 rest]].
  - rewrite invoke_nil. split; [discriminate|]. discriminate.
  - rewrite invoke_usage. split; [discriminate|].
    cbn. intros l r [= <- <-]. repeat split; try discriminate. now left.
  - destruct (decide (a1 = "filter")) as [->|Hf].
    + rewrite invoke_filter.
      destruct (execvp _ _) as [[r e]|] eqn:Hex; [|split; discriminate].
      apply Hcontract in Hex.
      destruct (decide (r <> 0)) as [_|Hn]; [|contradiction].
      split; [discriminate|].
      cbn. intros l r' [= <- <-]. repeat split; try discriminate.
      right. now exists Bfilter.
    + pose proof (branch_run_token a0 a1 rest) as Hb.
      unfold branch_run in Hb.
      destruct (fst (invoke (a0 :: a1 :: rest))) as [u|l r| |] eqn:E;
        try discriminate.
      * split; [discriminate|].
        intros l' r' [= <- <-].
        split.
        { intros ->. cbn in Hb. injection Hb as Hb. symmetry in Hb.
          now apply arm_of_token_filter in Hb. }
        split; [intros ->; discriminate Hb|].
        split; [right; rewrite Hb; eauto|].
        cbn. intros [= ->]. contradiction.
      * injection Hb as Hb. symmetry in Hb.
        now apply arm_of_token_filter in Hb.
Qed.

End Proofs.

(** ** Runs with the test double *)

Example run_basename : @BASENAME stub "/usr/local/bin/lofreq" = "lofreq".
Proof. reflexivity. Qed.

Example run_no_subcommand :
  @invoke stub ["/usr/local/bin/lofreq"]
  = (Ret L29 1,
     mkState
       [Stderr ("lofreq: Fast and sensitive inference of single-nucleotide variants" +:+ nl);
        Stderr nl;
        Stderr ("Usage: lofreq <command> [options], where command is one of:" +:+ nl);
        Stderr ("  call    : call variants" +:+ nl);
        Stderr ("  version : prints version" +:+ nl);
        Stderr ("  filter : filter variants" +:+ nl);
        Stderr nl] 0).
Proof. reflexivity. Qed.

Example run_call :
  @invoke stub ["lofreq"; "call"; "a"; "b"; "c"]
  = (Ret L32 7,
     mkState [MainCall 4 [Some "call"; Some "a"; Some "b"; Some "c"; NULL]] 0).
Proof. reflexivity. Qed.

Example run_filter :
  @invoke stub ["lofreq"; "filter"; "x"; "y"]
  = (Ret L44 (-1),
     mkState
       [Calloc 3;
        Execvp "lofreq2_filter.py" [Some "lofreq"; Some "x"; Some "y"];
        Stderr ("Calling lofreq2_filter.py via execvp failed: No such file or directory" +:+ nl);
        Free [Some "lofreq"; Some "x"; Some "y"]] 2).
Proof. reflexivity. Qed.

Example run_filter_alone :
  @invoke stub ["lofreq"; "filter"]
  = (Ret L44 (-1),
     mkState
       [Calloc 1;
        Execvp "lofreq2_filter.py" [Some "lofreq"];
        Stderr ("Calling lofreq2_filter.py via execvp failed: No such file or directory" +:+ nl);
        Free [Some "lofreq"]] 2).
Proof. reflexivity. Qed.

Example run_version :
  @invoke stub ["lofreq"; "version"; "ignored"]
  = (Ret L52 0, mkState [Stdout ("2.0.0-test" +:+ nl)] 0).
Proof. reflexivity. Qed.

Example run_bogus :
  @invoke stub ["lofreq"; "bogus"]
  = (Ret L55 1, mkState [LogFatal ("Unrecognized command 'bogus'" +:+ nl)] 0).
Proof. reflexivity. Qed.

Example run_no_argument : @invoke stub [] = (Undefined, start).
Proof. reflexivity. Qed.

(** ** The properties on concrete invocations *)

Lemma stub_execvp_contract : @execvp_contract stub.
Proof. intros file argv r e [= <- <-]. discriminate. Qed.

Lemma C1_witness :
  (3 <= length ["progname"; "filter"; "x"; "y"])%nat /\
  ["progname"; "filter"; "x"; "y"] !! 1%nat = Some "filter" /\
  exists progname : string,
    ["progname"; "filter"; "x"; "y"] !! 0%nat = Some progname /\
    execvp_calls (trace (snd (@invoke stub ["progname"; "filter"; "x"; "y"])))
    = [("lofreq2_filter.py",
        Some progname :: (Some <$> drop 2 ["progname"; "filter"; "x"; "y"]))].
Proof.
  split; [cbn; lia|]. split; [reflexivity|].
  apply (@C1_filter_vector_is_path_then_tail stub); [cbn; lia|reflexivity].
Defined.

Lemma C2_witness :
  (2 <= length ["progname"; "call"; "a"; "b"; "c"])%nat /\
  ["progname"; "call"; "a"; "b"; "c"] !! 1%nat = Some "call" /\
  trace (snd (@invoke stub ["progname"; "call"; "a"; "b"; "c"]))
  = [MainCall 4 [Some "call"; Some "a"; Some "b"; Some "c"; NULL]] /\
  fst (@invoke stub ["progname"; "call"; "a"; "b"; "c"]) = Ret L32 7.
Proof.
  split; [cbn; lia|]. split; [reflexivity|].
  destruct (@C2_call_delegates_and_propagates stub
              ["progname"; "call"; "a"; "b"; "c"]) as (Ht & _ & Hr);
    [cbn; lia|reflexivity|].
  split; [exact Ht|]. apply Hr. reflexivity.
Defined.

Lemma C4_witness :
  @execvp stub "lofreq2_filter.py" (Some <$> ["lofreq"; "-i"; "in.vcf"])
  = Some (-1, 2) /\
  -1 <> 0 /\
  fst (@invoke stub ["lofreq"; "filter"; "-i"; "in.vcf"]) = Ret L44 (-1) /\
  stderr_of (trace (snd (@invoke stub ["lofreq"; "filter"; "-i"; "in.vcf"])))
  = "Calling lofreq2_filter.py via execvp failed: " +:+ @strerror stub 2 +:+ nl.
Proof.
  split; [reflexivity|]. split; [lia|].
  destruct (@C4_filter_launch_failure stub "lofreq" ["-i"; "in.vcf"] (-1) 2)
    as (Hr & Ht & _); [reflexivity|lia|].
  split; [exact Hr|exact Ht].
Defined.

Lemma X10_witness :
  length ["/usr/local/bin/lofreq"] = 1%nat /\
  exists a0 : string,
    ["/usr/local/bin/lofreq"] !! 0%nat = Some a0 /\
    fst (@invoke stub ["/usr/local/bin/lofreq"]) = Ret L29 1 /\
    trace (snd (@invoke stub ["/usr/local/bin/lofreq"]))
    = [Stderr (@PACKAGE_NAME stub +:+ ": Fast and sensitive inference of single-nucleotide variants" +:+ nl);
       Stderr nl;
       Stderr ("Usage: " +:+ @BASENAME stub a0 +:+ " <command> [options], where command is one of:" +:+ nl);
       Stderr ("  call    : call variants" +:+ nl);
       Stderr ("  version : prints version" +:+ nl);
       Stderr ("  filter : filter variants" +:+ nl);
       Stderr nl].
Proof.
  split; [reflexivity|].
  apply (@X10_usage_with_program_name_only stub). reflexivity.
Defined.

Lemma C7_witness :
  (2 <= length ["progname"; "bogus"])%nat /\
  ["progname"; "bogus"] !! 1%nat = Some "bogus" /\
  "bogus" <> "call" /\ "bogus" <> "filter" /\ "bogus" <> "version" /\
  exists msg : string,
    @invoke stub ["progname"; "bogus"] = (Ret L55 1, mkState [LogFatal msg] 0) /\
    contains msg "bogus".
Proof.
  split; [cbn; lia|]. split; [reflexivity|].
  split; [discriminate|]. split; [discriminate|]. split; [discriminate|].
  apply (@C7_unrecognized_command stub);
    [cbn; lia|reflexivity|discriminate..].
Defined.

Lemma C8_witness :
  ["./lofreq"; "filter"; "-i"; "in.vcf"] !! 1%nat = Some "filter" /\
  exists (a0 : string) (forwarded : list ptr),
    ["./lofreq"; "filter"; "-i"; "in.vcf"] !! 0%nat = Some a0 /\
    execvp_calls (trace (snd (@invoke stub ["./lofreq"; "filter"; "-i"; "in.vcf"])))
    = [("lofreq2_filter.py", forwarded)] /\
    forwarded !! 0%nat = Some (Some a0) /\
    S (length forwarded) = length ["./lofreq"; "filter"; "-i"; "in.vcf"] /\
    forall i : nat,
      forwarded !! S i = Some <$> ["./lofreq"; "filter"; "-i"; "in.vcf"] !! S (S i).
Proof.
  split; [reflexivity|].
  apply (@C8_filter_list_keeps_path_and_order stub). reflexivity.
Defined.

(** No fixed name stands first in the forwarded list: invoked as [lofreq]
    and as [./lofreq] the first elements differ. *)
Lemma C8_counterexample_first_element_varies :
  ~ (exists name : string,
       forall (C : Collaborators) (args : list string),
         args !! 1%nat = Some "filter" ->
         exists tail : list ptr,
           execvp_calls (trace (snd (@invoke C args)))
           = [("lofreq2_filter.py", Some name :: tail)]).
Proof.
  intros [name Hall].
  destruct (Hall stub ["lofreq"; "filter"; "x"] eq_refl) as [t1 E1].
  destruct (Hall stub ["./lofreq"; "filter"; "x"] eq_refl) as [t2 E2].
  vm_compute in E1, E2. congruence.
Qed.

Lemma C9_witness :
  (2 <= length ["lofreq"; "version"])%nat /\
  (2 <= length ["/usr/bin/lofreq"; "version"; "-x"; "y"])%nat /\
  ["lofreq"; "version"] !! 1%nat = ["/usr/bin/lofreq"; "version"; "-x"; "y"] !! 1%nat /\
  branch_run (@invoke stub ["lofreq"; "version"])
  = branch_run (@invoke stub ["/usr/bin/lofreq"; "version"; "-x"; "y"]).
Proof.
  split; [cbn; lia|]. split; [cbn; lia|]. split; [reflexivity|].
  apply (@C9_arm_depends_on_argument_1_only stub
           ["lofreq"; "version"] ["/usr/bin/lofreq"; "version"; "-x"; "y"]);
    [cbn; lia|cbn; lia|reflexivity].
Defined.

Lemma C10_witness :
  @execvp_contract stub /\
  forall (l : site) (r : Z),
    fst (@invoke stub ["lofreq"; "filter"; "x"]) = Ret l r ->
    l <> L47 /\ l <> L57 /\
    (l = L29 \/ is_Some (branch_of_site l)) /\
    (["lofreq"; "filter"; "x"] !! 1%nat = Some "filter" -> l = L44 /\ r = -1).
Proof.
  split; [exact stub_execvp_contract|].
  apply (@C10_return_sites stub ["lofreq"; "filter"; "x"]).
  exact stub_execvp_contract.
Defined.

(** Invoked with the program name alone, [main] returns from the guard on
    line 29, which lies in none of the four arms of the dispatch chain. *)
Lemma C10_counterexample_guard_return :
  ~ (forall (C : Collaborators) (args : list string),
       @execvp_contract C ->
       exists b : branch, branch_run (@invoke C args) = Some b).
Proof.
  intros Hall.
  destruct (Hall stub ["lofreq"] stub_execvp_contract) as [b E].
  discriminate E.
Qed.

(** ** Further properties of [main] and [usage] *)

Lemma append_assoc (a b c : string) : (a +:+ b) +:+ c = a +:+ b +:+ c.
Proof.
  induction a as [|x a IH]; [reflexivity|].
  change (String x ((a +:+ b) +:+ c) = String x (a +:+ b +:+ c)).
  now rewrite IH.
Qed.

Lemma append_nonempty_neq (name suffix : string) :
  suffix <> EmptyString -> name +:+ suffix <> name.
Proof.
  intros Hs. induction name as [|x name IH].
  - exact Hs.
  - change (String x (name +:+ suffix) <> String x name).
    intros [= E]. now apply IH.
Qed.

Section More.
Context `{Collaborators}.

(** The runs of [main], by the shape of the command line. *)
Ltac by_arm args a0 a1 rest :=
  destruct args as [|a0 [|a1 rest]];
  [rewrite invoke_nil
  |rewrite invoke_usage
  |destruct (decide (a1 = "call")) as [->|?];
   [rewrite invoke_call
   |destruct (decide (a1 = "filter")) as [->|?];
    [rewrite invoke_filter;
     destruct (execvp _ _) as [[? ?]|] eqn:?;
     [destruct (decide (_ <> 0))|]
    |destruct (decide (a1 = "version")) as [->|?];
     [rewrite invoke_version
     |rewrite invoke_else by assumption]]]].

(** X1. Off the filter path [main] reads [argv] only where it holds a
    string: with a program name present and argument 1 other than
    "filter", no read of [argv] leaves the array or meets a null pointer.
    In particular the guard [argc < 2] returns before [strcmp] could be
    given the null [argv[1]] of a command line without subcommand. *)
Theorem X1_argv_reads_defined_off_filter (args : list string) :
  args <> [] ->
  args !! 1%nat <> Some "filter" ->
  fst (invoke args) <> Undefined /\
  (length args = 1%nat ->
   c_argv args !! 1%nat = Some NULL /\ fst (invoke args) = Ret L29 1).
Proof.
  intros Hne Hnf. split.
  - revert Hne Hnf.
    by_arm args a0 a1 rest; cbn; intros Hne Hnf;
      try discriminate; congruence.
  - intros Hlen. destruct args as [|a0 [|a1 rest]]; try discriminate.
    rewrite invoke_usage. split; reflexivity.
Qed.

(** X2. When [main] returns, either it never touched the heap, or it
    allocated one block, handed it to [execvp] once, and freed that same
    block once, as its last action: no leak, no double free, no use after
    free. *)
Theorem X2_block_freed_once_after_use (args : list string) (l : site) (r : Z) :
  fst (invoke args) = Ret l r ->
  let t := trace (snd (invoke args)) in
  (calloc_calls t = [] /\ execvp_calls t = [] /\ free_calls t = []) \/
  (exists (before : list event) (block : list ptr),
     t = before ++ [Free block] /\
     calloc_calls before = [Z.of_nat (length block)] /\
     execvp_calls before = [("lofreq2_filter.py", block)] /\
     free_calls before = []).
Proof.
  intros Hret. cbv zeta. revert Hret.
  by_arm args a0 a1 rest; cbn [fst snd trace]; intros Hret;
    try discriminate; try (left; repeat split; reflexivity).
  - right. eexists [_; _; _], _. split; [reflexivity|].
    cbn [calloc_calls execvp_calls free_calls].
    repeat split. rewrite length_fmap. cbn [length]. do 2 f_equal. lia.
  - right. eexists [_; _], _. split; [reflexivity|].
    cbn [calloc_calls execvp_calls free_calls].
    repeat split. rewrite length_fmap. cbn [length]. do 2 f_equal. lia.
Qed.


(** X4. The usage text and the launch-failure message go to the error
    stream only: in a run with the program name alone, and in every run
    on the filter path, [main] writes nothing to standard output. *)
Theorem X4_usage_and_launch_error_off_stdout (args : list string) :
  length args = 1%nat \/ args !! 1%nat = Some "filter" ->
  stdout_of (trace (snd (invoke args))) = EmptyString.
Proof.
  intros Hcase. revert Hcase.
  by_arm args a0 a1 rest; cbn; intros [Hlen|Hf];
    try discriminate; try congruence; reflexivity.
Qed.

(** X5. On the call path the handler is run as a program of its own: its
    count is the number of arguments from "call" on and its vector is
    these arguments followed by the null pointer; the program path
    [argv[0]] of the dispatcher takes no part in the run. *)
Theorem X5_handler_gets_a_terminated_vector (args : list string) :
  args !! 1%nat = Some "call" ->
  let argc' := Z.of_nat (length (drop 1 args)) in
  let argv' := c_argv (drop 1 args) in
  invoke args = (Ret L32 (main_call argc' argv'), mkState [MainCall argc' argv'] 0) /\
  argv' !! length (drop 1 args) = Some NULL /\
  Forall is_Some (take (length (drop 1 args)) argv').
Proof.
  intros Hc. destruct args as [|a0 [|a1 rest]]; try discriminate.
  cbn in Hc. injection Hc as ->. cbv zeta.
  rewrite invoke_call. cbn [drop].
  replace (Z.of_nat (length (a0 :: "call" :: rest)) - 1)
    with (Z.of_nat (length ("call" :: rest))) by (cbn [length]; lia).
  split; [reflexivity|]. unfold c_argv. split.
  - rewrite lookup_app_r by (rewrite length_fmap; lia).
    rewrite length_fmap, Nat.sub_diag. reflexivity.
  - rewrite take_app_length' by (now rewrite length_fmap).
    apply Forall_fmap, Forall_forall. intros x _. now exists x.
Qed.

(** X6. When [execvp] returns only nonzero values, [main] returns 0
    exactly when argument 1 is "version", or is "call" and the handler
    returned 0: the usage, launch-failure and unrecognized-command runs
    never report success. *)
Theorem X6_status_0_means_success (args : list string) :
  execvp_contract ->
  (exists l : site, fst (invoke args) = Ret l 0) <->
  (args !! 1%nat = Some "version" \/
   (args !! 1%nat = Some "call" /\
    main_call (Z.of_nat (length args) - 1) (drop 1 (c_argv args)) = 0)).
Proof.
  intros Hcontract. split.
  - intros [l Hret]. revert Hret.
    by_arm args a0 a1 rest; cbn [fst snd]; intros Hret; try discriminate.
    + right. split; [reflexivity|]. now injection Hret.
    + exfalso. eapply Hcontract; [eassumption|]. lia.
    + now left.
  - intros [Hv|[Hc Hr]].
    + destruct args as [|a0 [|a1 rest]]; try discriminate.
      cbn in Hv. injection Hv as ->. rewrite invoke_version. now exists L52.
    + destruct args as [|a0 [|a1 rest]]; try discriminate.
      cbn in Hc. injection Hc as ->. rewrite invoke_call.
      exists L32. cbn [fst]. now rewrite Hr.
Qed.

(** X7. Subcommands are matched whole: a token that continues "call",
    "filter" or "version" with further characters is unrecognized and
    gives status 1. *)
Theorem X7_no_match_on_a_prefix (a0 name suffix : string) (rest : list string) :
  name ∈ ["call"; "filter"; "version"] ->
  suffix <> EmptyString ->
  invoke (a0 :: (name +:+ suffix) :: rest)
  = (Ret L55 1,
     mkState [LogFatal ("Unrecognized command '" +:+ (name +:+ suffix) +:+ "'" +:+ nl)] 0).
Proof.
  intros Hname Hs.
  assert (Hneq := append_nonempty_neq name suffix Hs).
  apply invoke_else; intros E;
    repeat (apply elem_of_cons in Hname as [->|Hname]);
    try (now apply elem_of_nil in Hname);
    solve [contradiction | discriminate E].
Qed.

(** X8. The usage text names every subcommand the dispatcher accepts: a
    token that does not end in the error arm occurs in what [usage]
    writes to the error stream. *)
Theorem X8_usage_lists_accepted_commands
    (a0 token myname : string) (rest : list string) :
  branch_run (invoke (a0 :: token :: rest)) <> Some Belse ->
  contains (stderr_of (trace (snd (usage myname start)))) token.
Proof.
  rewrite branch_run_token. unfold arm_of_token. intros Harm.
  set (l1 := PACKAGE_NAME +:+ ": Fast and sensitive inference of single-nucleotide variants" +:+ nl).
  set (l3 := "Usage: " +:+ myname +:+ " <command> [options], where command is one of:" +:+ nl).
  assert (Hout : trace (snd (usage myname start))
    = [Stderr l1; Stderr nl; Stderr l3;
       Stderr ("  call    : call variants" +:+ nl);
       Stderr ("  version : prints version" +:+ nl);
       Stderr ("  filter : filter variants" +:+ nl);
       Stderr nl]) by reflexivity.
  rewrite Hout. cbn [stderr_of]. rewrite append_nil_r.
  destruct (decide (token = "call")) as [->|Hc].
  { exists (l1 +:+ nl +:+ l3 +:+ "  ").
    exists ("    : call variants" +:+ nl
            +:+ ("  version : prints version" +:+ nl)
            +:+ ("  filter : filter variants" +:+ nl) +:+ nl).
    rewrite !append_assoc. reflexivity. }
  destruct (decide (token = "filter")) as [->|Hf].
  { exists (l1 +:+ nl +:+ l3 +:+ ("  call    : call variants" +:+ nl)
            +:+ ("  version : prints version" +:+ nl) +:+ "  ").
    exists (" : filter variants" +:+ nl +:+ nl).
    rewrite !append_assoc. reflexivity. }
  destruct (decide (token = "version")) as [->|Hv]; [|congruence].
  exists (l1 +:+ nl +:+ l3 +:+ ("  call    : call variants" +:+ nl) +:+ "  ").
  exists (" : prints version" +:+ nl
          +:+ ("  filter : filter variants" +:+ nl) +:+ nl).
  rewrite !append_assoc. reflexivity.
Qed.

(** X9. When [execvp] starts the executable, the run of the filter path
    ends there: after the call nothing is written, nothing is freed and
    [main] does not return. *)
Theorem X9_launch_ends_the_run (a0 : string) (rest : list string) :
  execvp "lofreq2_filter.py" (Some <$> a0 :: rest) = None ->
  let res := invoke (a0 :: "filter" :: rest) in
  fst res = Replaced /\
  last (trace (snd res)) = Some (Execvp "lofreq2_filter.py" (Some <$> a0 :: rest)) /\
  free_calls (trace (snd res)) = [] /\
  stderr_of (trace (snd res)) = EmptyString /\
  stdout_of (trace (snd res)) = EmptyString.
Proof.
  intros Hex. cbv zeta. rewrite invoke_filter, Hex. repeat split.
Qed.

End More.

(** ** The further properties on concrete invocations *)

Lemma stub_launch_execvp_contract : @execvp_contract stub_launch.
Proof. intros file argv r e E. discriminate E. Qed.

Lemma X1_witness :
  ["lofreq"] <> [] /\
  ["lofreq"] !! 1%nat <> Some "filter" /\
  fst (@invoke stub ["lofreq"]) <> Undefined /\
  (length ["lofreq"] = 1%nat ->
   c_argv ["lofreq"] !! 1%nat = Some NULL /\
   fst (@invoke stub ["lofreq"]) = Ret L29 1).
Proof.
  split; [discriminate|]. split; [discriminate|].
  apply (@X1_argv_reads_defined_off_filter stub ["lofreq"]); discriminate.
Defined.

Lemma X2_witness :
  fst (@invoke stub ["lofreq"; "filter"; "x"]) = Ret L44 (-1) /\
  ((calloc_calls (trace (snd (@invoke stub ["lofreq"; "filter"; "x"]))) = [] /\
    execvp_calls (trace (snd (@invoke stub ["lofreq"; "filter"; "x"]))) = [] /\
    free_calls (trace (snd (@invoke stub ["lofreq"; "filter"; "x"]))) = []) \/
   (exists (before : list event) (block : list ptr),
      trace (snd (@invoke stub ["lofreq"; "filter"; "x"])) = before ++ [Free block] /\
      calloc_calls before = [Z.of_nat (length block)] /\
      execvp_calls before = [("lofreq2_filter.py", block)] /\
      free_calls before = [])).
Proof.
  split; [reflexivity|].
  apply (@X2_block_freed_once_after_use stub ["lofreq"; "filter"; "x"] L44 (-1)).
  reflexivity.
Defined.

Lemma X4_witness :
  (length ["lofreq"; "filter"; "x"] = 1%nat \/
   ["lofreq"; "filter"; "x"] !! 1%nat = Some "filter") /\
  stdout_of (trace (snd (@invoke stub ["lofreq"; "filter"; "x"]))) = EmptyString.
Proof.
  split; [right; reflexivity|].
  apply (@X4_usage_and_launch_error_off_stdout stub ["lofreq"; "filter"; "x"]).
  right. reflexivity.
Defined.

Lemma X5_witness :
  ["/opt/bin/lofreq"; "call"; "-f"; "ref.fa"] !! 1%nat = Some "call" /\
  @invoke stub ["/opt/bin/lofreq"; "call"; "-f"; "ref.fa"]
  = (Ret L32 7,
     mkState [MainCall 3 [Some "call"; Some "-f"; Some "ref.fa"; NULL]] 0).
Proof.
  split; [reflexivity|].
  destruct (@X5_handler_gets_a_terminated_vector stub
              ["/opt/bin/lofreq"; "call"; "-f"; "ref.fa"] eq_refl) as (Hrun & _).
  exact Hrun.
Defined.

Lemma X6_witness :
  @execvp_contract stub_launch /\
  ((exists l : site,
      fst (@invoke stub_launch ["lofreq"; "call"; "in.bam"]) = Ret l 0) <->
   (["lofreq"; "call"; "in.bam"] !! 1%nat = Some "version" \/
    (["lofreq"; "call"; "in.bam"] !! 1%nat = Some "call" /\
     @main_call stub_launch
       (Z.of_nat (length ["lofreq"; "call"; "in.bam"]) - 1)
       (drop 1 (c_argv ["lofreq"; "call"; "in.bam"])) = 0))).
Proof.
  split; [exact stub_launch_execvp_contract|].
  apply (@X6_status_0_means_success stub_launch).
  exact stub_launch_execvp_contract.
Defined.

Lemma X7_witness :
  "call" ∈ ["call"; "filter"; "version"] /\
  "s" <> EmptyString /\
  @invoke stub ["lofreq"; "calls"; "in.bam"]
  = (Ret L55 1, mkState [LogFatal ("Unrecognized command 'calls'" +:+ nl)] 0).
Proof.
  split; [apply elem_of_cons; now left|]. split; [discriminate|].
  apply (@X7_no_match_on_a_prefix stub "lofreq" "call" "s" ["in.bam"]);
    [apply elem_of_cons; now left|discriminate].
Defined.

Lemma X8_witness :
  branch_run (@invoke stub ["lofreq"; "filter"; "x"]) <> Some Belse /\
  contains (stderr_of (trace (snd (@usage stub "lofreq" start)))) "filter".
Proof.
  split; [discriminate|].
  apply (@X8_usage_lists_accepted_commands stub "lofreq" "filter" "lofreq" ["x"]).
  discriminate.
Defined.

Lemma X9_witness :
  @execvp stub_launch "lofreq2_filter.py" (Some <$> ["lofreq"; "x"]) = None /\
  @invoke stub_launch ["lofreq"; "filter"; "x"]
  = (Replaced,
     mkState [Calloc 2; Execvp "lofreq2_filter.py" [Some "lofreq"; Some "x"]] 0) /\
  free_calls (trace (snd (@invoke stub_launch ["lofreq"; "filter"; "x"]))) = [].
Proof.
  split; [reflexivity|]. split; [reflexivity|].
  destruct (@X9_launch_ends_the_run stub_launch "lofreq" ["x"] eq_refl)
    as (_ & _ & Hfree & _).
  exact Hfree.
Defined.
